(** * Action coordination and reconciliation engine

    A shallow embedding of the two services that coordinate the codes
    table: [ActionProcessor] (Backend/app/services/action_processor.py) and
    [FientaMonitorService] (app/services/fienta_monitor.py), with the
    request layer that files intents (app/routers/actions.py), followed by
    the properties stated about them.

    Python dictionaries with string keys are finite maps, table rows are
    records, a table is the list of its rows in storage order, and the
    methods run in a state-and-exception monad over the tables together
    with the traces of what left the process (store writes, Gateway calls,
    subprocess runs, files).  Everything the program reads from outside
    (clock, subprocess results, scrape output, failing queries, what the
    file system accepts) is a field of [env].

    Conventions of the model: a column holds the JSON scalar it was given;
    the [metadata] column of [codes] holds a JSON object or NULL, and what
    Python does with a [None] there (an [AttributeError] on [.get], a
    [TypeError] on [{**None}]) is part of the model; the clock does not
    advance during a call; rate-limit sleeps and log lines are left out;
    of the store calls only the four pending-rows queries can raise. *)

From Stdlib Require Import ZArith String List Bool.
From stdpp Require Import gmap strings list fin_maps pretty.

Local Open Scope string_scope.
Local Open Scope Z_scope.

(** ** JSON scalars and Python's view of them *)

Inductive value :=
  | VNone
  | VBool (b : bool)
  | VInt (n : Z)
  | VStr (s : string).

#[global] Instance value_eq_dec : EqDecision value.
Proof. solve_decision. Defined.

(** [bool(v)]: what [if v] and [not v] test. *)
Definition truthy (v : value) : bool :=
  match v with
  | VNone => false
  | VBool b => b
  | VInt n => negb (n =? 0)
  | VStr s => negb (String.eqb s "")
  end.

(** [a or b] *)
Definition py_or (a b : value) : value := if truthy a then a else b.

(** [str(v)], as used by f-strings. *)
Definition py_str (v : value) : string :=
  match v with
  | VNone => "None"
  | VBool true => "True"
  | VBool false => "False"
  | VInt n => pretty n
  | VStr s => s
  end.

(** [v == 'literal'] *)
Definition is_str (v : value) (s : string) : bool := bool_decide (v = VStr s).

(** The line feed of Python's ['\n']. *)
Definition nl : string := String (Ascii.ascii_of_nat 10) EmptyString.

(** A dictionary with string keys. *)
Abbreviation dict := (gmap string value).

(** [d.get(k)] and [d.get(k, default)] *)
Definition get (d : dict) (k : string) : value := default VNone (d !! k).
Definition get_or (d : dict) (k : string) (dflt : value) : value :=
  default dflt (d !! k).

(** [{**a, **b}]: keys of [b] win. *)
Definition merge_over (a b : dict) : dict := b ∪ a.

(** ** Rows and tables *)

(** A row of [codes].  [metadata] is the JSON object of the column, or
    [None] for NULL (a row inserted through [POST /api/codes] without
    metadata has it).  [columns] holds the columns the engine only carries
    along (id, type, organization_id, created_at). *)
Record code_row := CodeRow {
  code : value;
  status : value;
  updated_at : value;
  metadata : option dict;
  columns : dict
}.

(** [row.get('metadata') or {}] *)
Definition metadata_or_empty (r : code_row) : dict := default ∅ (metadata r).

(** Rows of the other three tables.  The processor reaches them only
    through a [contains] query on [metadata], which a NULL does not match,
    and writes the column as a whole: a NULL there behaves as the empty
    object and is modelled by it. *)
Record order_row := OrderRow {
  external_id : value;
  order_status : value;
  order_updated_at : value;
  order_metadata : dict
}.

Record link_row := LinkRow {
  link_id : value;
  original_url : value;
  short_url : value;
  link_updated_at : value;
  link_metadata : dict
}.

Record org_row := OrgRow {
  org_id : value;
  org_updated_at : value;
  org_metadata : dict
}.

#[global] Instance code_row_eq_dec : EqDecision code_row.
Proof. solve_decision. Defined.

(** The dictionary handed to [.update(...)] on [codes]: a column is written
    when it is present; the program only ever writes an object to
    [metadata]. *)
Record patch := Patch {
  p_code : option value;
  p_status : option value;
  p_updated_at : option value;
  p_metadata : option dict;
  p_columns : dict
}.

Definition apply_patch (p : patch) (r : code_row) : code_row :=
  {| code := default (code r) (p_code p);
     status := default (status r) (p_status p);
     updated_at := default (updated_at r) (p_updated_at p);
     metadata := match p_metadata p with
                 | Some md => Some md
                 | None => metadata r
                 end;
     columns := merge_over (columns r) (p_columns p) |}.

(** [.select(..).eq('code', c)] *)
Definition select_eq_code (c : value) (t : list code_row) : list code_row :=
  filter (λ r, code r = c) t.

(** [.select(..).eq('status', s)] *)
Definition select_eq_status (s : string) (t : list code_row) : list code_row :=
  filter (λ r, status r = VStr s) t.

(** [.update(p).eq('code', c)] *)
Definition update_eq_code (p : patch) (c : value) (t : list code_row)
  : list code_row :=
  (λ r, if decide (code r = c) then apply_patch p r else r) <$> t.

(** [.delete().eq('code', c)] *)
Definition delete_eq_code (c : value) (t : list code_row) : list code_row :=
  filter (λ r, code r ≠ c) t.

(** [.insert(r)] *)
Definition insert_row {A} (r : A) (t : list A) : list A := t ++ [r].

(** The four pending-intent statuses. *)
Definition pending_statuses : list string :=
  ["creating"; "deleting"; "updating"; "renaming"].

Definition is_pending (s : value) : bool := existsb (is_str s) pending_statuses.

(** ** The world and what the program reads from it *)

Inductive write_op :=
  | WUpdate (table : string) (key : value)
  | WInsert (table : string) (key : value)
  | WDelete (table : string) (key : value).

Record world := World {
  codes : list code_row;
  orders : list order_row;
  links : list link_row;
  organizations : list org_row;
  (** every write sent to the store, oldest first *)
  journal : list write_op;
  (** every call of [_run_fienta_operation]: operation and [params] *)
  gateway_log : list (string * dict);
  (** every [subprocess.run]: the command family and the code it is for *)
  subprocess_log : list (string * value);
  (** files written under logs/: path and text *)
  log_files : list (string * string)
}.

(** One item of the [scrape-code-details] output. *)
Record detail_item := DetailItem {
  item_code : value;
  item_discountId : value;
  item_editUrl : value
}.

(** What [subprocess.run] returns for the deletion script. *)
Record completed_process := CompletedProcess {
  returncode : Z;
  stdout : string;
  stderr : string
}.

Record env := Env {
  (** [datetime.now(timezone.utc).isoformat()] *)
  now : value;
  (** [datetime.now().strftime('%Y%m%d_%H%M%S')] *)
  now_stamp : string;
  (** [settings.fienta_event_id] *)
  fienta_event_id : string;
  (** the run of the generated Playwright script for a code and edit URL;
      [None] when [subprocess.run] raises (the 90 second timeout) *)
  run_delete_script : value → string → option completed_process;
  (** parsed output of the one-off scrape for a code; [None] when the
      command fails, times out or leaves nothing that parses *)
  scrape_code_details : value → option (list detail_item);
  (** the pending-rows query of a table raises *)
  select_raises : string → bool;
  (** the file system accepts a write at this path *)
  file_writable : string → bool
}.

(** ** State and exceptions *)

Inductive result (A : Type) :=
  | Ok (a : A)
  | Raise (msg : string).
Arguments Ok {A} a.
Arguments Raise {A} msg.

Definition M (A : Type) : Type := world → result A * world.

Definition ret {A} (a : A) : M A := λ w, (Ok a, w).
Definition raise {A} (msg : string) : M A := λ w, (Raise msg, w).
Definition bind {A B} (m : M A) (k : A → M B) : M B :=
  λ w, match m w with
       | (Ok a, w') => k a w'
       | (Raise e, w') => (Raise e, w')
       end.
(** [try: m except Exception as e: h(e)] *)
Definition try_except {A} (m : M A) (h : string → M A) : M A :=
  λ w, match m w with
       | (Ok a, w') => (Ok a, w')
       | (Raise e, w') => h e w'
       end.

Notation "'let*' x ':=' m 'in' k" := (bind m (λ x, k))
  (at level 10, x name, m at level 100, k at level 200).
Notation "m ;;; k" := (bind m (λ _, k))
  (at level 100, k at level 200, right associativity).

Definition read {A} (f : world → A) : M A := λ w, (Ok (f w), w).
Definition modify (f : world → world) : M unit := λ w, (Ok tt, f w).

(** What Python raises when a NULL [metadata] is used as the object it
    is expected to be: [metadata.get(..)], [{**metadata}] and
    [key in metadata]. *)
Definition no_attribute_get : string := "'NoneType' object has no attribute 'get'".
Definition not_a_mapping : string := "'NoneType' object is not a mapping".
Definition not_iterable : string := "argument of type 'NoneType' is not iterable".

Definition as_object (md : option dict) (error : string) : M dict :=
  match md with
  | Some d => ret d
  | None => raise error
  end.

Definition with_codes (f : list code_row → list code_row) (w : world) : world :=
  World (f (codes w)) (orders w) (links w) (organizations w)
        (journal w) (gateway_log w) (subprocess_log w) (log_files w).
Definition journaled (op : write_op) (w : world) : world :=
  World (codes w) (orders w) (links w) (organizations w)
        (journal w ++ [op]) (gateway_log w) (subprocess_log w) (log_files w).
Definition gateway_called (op : string) (params : dict) (w : world) : world :=
  World (codes w) (orders w) (links w) (organizations w)
        (journal w) (gateway_log w ++ [(op, params)]) (subprocess_log w) (log_files w).
Definition subprocess_ran (cmd : string) (c : value) (w : world) : world :=
  World (codes w) (orders w) (links w) (organizations w)
        (journal w) (gateway_log w) (subprocess_log w ++ [(cmd, c)]) (log_files w).
Definition file_written (path text : string) (w : world) : world :=
  World (codes w) (orders w) (links w) (organizations w)
        (journal w) (gateway_log w) (subprocess_log w) (log_files w ++ [(path, text)]).

(** The store calls on [codes], each write entered in the journal. *)
Definition codes_select_eq (c : value) : M (list code_row) :=
  read (λ w, select_eq_code c (codes w)).
Definition codes_update_eq (p : patch) (c : value) : M unit :=
  modify (λ w, journaled (WUpdate "codes" c) (with_codes (update_eq_code p c) w)).
Definition codes_delete_eq (c : value) : M unit :=
  modify (λ w, journaled (WDelete "codes" c) (with_codes (delete_eq_code c) w)).
Definition codes_insert (r : code_row) : M unit :=
  modify (λ w, journaled (WInsert "codes" (code r)) (with_codes (insert_row r) w)).

(** ** ActionProcessor *)

Module ActionProcessor.
Section WithEnv.
Context (E : env).

(** [str(code).replace('/', '_')] *)
Fixpoint replace_slash (s : string) : string :=
  match s with
  | EmptyString => EmptyString
  | String a s' =>
      String (if Ascii.eqb a (Ascii.ascii_of_nat 47) then Ascii.ascii_of_nat 95 else a)
             (replace_slash s')
  end.

(** ['/' in s] *)
Fixpoint has_slash (s : string) : bool :=
  match s with
  | EmptyString => false
  | String a s' => Ascii.eqb a (Ascii.ascii_of_nat 47) || has_slash s'
  end.

Definition delete_log_path (c : value) : string :=
  "logs/fienta_delete_" +:+ replace_slash (py_str c) +:+ "_" +:+ now_stamp E +:+ ".log".

(** [log_path.write_text(text)] inside [try: .. except Exception: pass]. *)
Definition write_log (path text : string) : M unit :=
  if file_writable E path then modify (file_written path text) else ret tt.

(** [_mark_action_failed]: the whole body sits in a try block, so it
    never raises; when the row read back has a NULL [metadata] the
    [{**existing_metadata, ..}] raises inside it and nothing is written. *)
Definition _mark_action_failed (c : value) (error : string)
    (previous_status : value) : M unit :=
  let* current := codes_select_eq c in
  let existing_metadata :=
    match current with
    | r :: _ => metadata r
    | [] => Some ∅
    end in
  match existing_metadata with
  | None => ret tt
  | Some existing =>
      let updated_metadata :=
        <["failed_at" := now E]>
          (<["action_error" := VStr error]>
            (<["action_failed" := VBool true]> existing)) in
      codes_update_eq
        (Patch None (Some previous_status) (Some (now E)) (Some updated_metadata) ∅) c
  end.

(** The edit URL the deletion script is generated for; [None] when
    [fienta_edit_url] is truthy but has no [startswith]. *)
Definition edit_url_for (fienta_discount_id fienta_edit_url : value)
  : option string :=
  if truthy fienta_edit_url then
    match fienta_edit_url with
    | VStr u =>
        Some (if String.prefix "http" u then u else "https://fienta.com" +:+ u)
    | _ => None
    end
  else
    Some ("https://fienta.com/my/events/" +:+ fienta_event_id E +:+ "/discounts/"
          +:+ py_str fienta_discount_id +:+ "/edit").

(** The file the generated script is written to,
    [temp/delete_{code}_{ts}.js].  The code goes into the name as it is:
    with a [/] in it the file would lie in a directory that does not
    exist and [open] raises. *)
Definition script_path (c : value) : string :=
  "temp/delete_" +:+ py_str c +:+ "_" +:+ now_stamp E +:+ ".js".

Definition script_written (c : value) : bool :=
  negb (has_slash (py_str c)) && file_writable E (script_path c).

(** The text of the log kept of a script run. *)
Definition run_log_text (edit_url : string) (r : completed_process) : string :=
  "Edit URL: " +:+ edit_url +:+ nl +:+ "Return code: " +:+ pretty (returncode r)
  +:+ nl +:+ nl +:+ "STDOUT:" +:+ nl +:+ stdout r
  +:+ nl +:+ nl +:+ "STDERR:" +:+ nl +:+ stderr r +:+ nl.

(** [_delete_code_in_fienta]: the one operation that runs browser
    automation.  Any exception inside is turned into [False]: a truthy
    edit URL that is no string, a script file that cannot be written,
    the timeout of the run.  The text of the script is not modelled, and
    its file, removed after the run, is not traced. *)
Definition _delete_code_in_fienta (params : dict) : M bool :=
  let c := get params "code" in
  let fienta_discount_id := get params "fienta_discount_id" in
  let fienta_edit_url := get params "fienta_edit_url" in
  if negb (truthy fienta_discount_id) then ret false
  else
    match edit_url_for fienta_discount_id fienta_edit_url with
    | None => ret false
    | Some edit_url =>
        if negb (script_written c) then ret false
        else
          modify (subprocess_ran "node delete script" c) ;;;
          match run_delete_script E c edit_url with
          | None => ret false
          | Some r =>
              write_log (delete_log_path c) (run_log_text edit_url r) ;;;
              ret (returncode r =? 0)
          end
    end.

(** [_run_fienta_operation] *)
Definition _run_fienta_operation (operation : string) (params : dict) : M bool :=
  modify (gateway_called operation params) ;;;
  if String.eqb operation "delete-code" then _delete_code_in_fienta params
  else if existsb (String.eqb operation) ["create-code"; "update-code"; "rename-code"]
  then ret true
  else ret false.

(** [_handle_code_creation] *)
Definition creation_params (c : value) (md : dict) : dict :=
  {[ "discount_percent" := get_or md "discount_percent" (VInt 10);
     "discount_amount" := get md "discount_amount";
     "max_uses" := get_or md "max_uses" (VInt 1);
     "expires_at" := get md "expires_at";
     "description" :=
       get_or md "description" (VStr ("Auto-created code " +:+ py_str c)) ]}.

Definition _handle_code_creation (code_record : code_row) : M unit :=
  let c := code code_record in
  let* md := as_object (metadata code_record) no_attribute_get in
  let params := creation_params c md in
  let* success := _run_fienta_operation "create-code" (<["code" := c]> params) in
  if success : bool then
    codes_update_eq
      (Patch None (Some (VStr "active")) (Some (now E))
         (Some (merge_over
                  (<["creation_method" := VStr "api_request"]>
                     (<["created_in_fienta_at" := now E]> md))
                  (filter (λ kv, kv.2 ≠ VNone) params)))
         ∅) c
  else raise "Failed to create code in Fienta".

(** [_resolve_fienta_code_identifiers]: the pair is the returned
    [{'discount_id': .., 'edit_url': ..}].  The stored metadata is read
    with [or {}]; the write that keeps what the scrape found sits in its
    own [try: .. except Exception: pass] and is lost on a NULL. *)
Definition _resolve_fienta_code_identifiers (c : value)
  : M (option (value * value)) :=
  let* row := codes_select_eq c in
  let from_db :=
    match row with
    | r :: _ =>
        let md := metadata_or_empty r in
        let did := get md "fienta_discount_id" in
        let eurl := get md "fienta_edit_url" in
        if truthy did && truthy eurl then Some (did, eurl) else None
    | [] => None
    end in
  match from_db with
  | Some ids => ret (Some ids)
  | None =>
      modify (subprocess_ran "scrape-code-details" c) ;;;
      match scrape_code_details E c with
      | None => ret None
      | Some items =>
          match List.find (λ d, bool_decide (item_code d = c)) items with
          | None => ret None
          | Some m =>
              let did := item_discountId m in
              let eurl := item_editUrl m in
              if truthy did || truthy eurl then
                let* cur := codes_select_eq c in
                let cur_md := match cur with r :: _ => metadata r | [] => Some ∅ end in
                match cur_md with
                | Some cur_md =>
                    codes_update_eq
                      (Patch None None (Some (now E))
                         (Some (<["fienta_edit_url" := eurl]>
                                  (<["fienta_discount_id" := did]> cur_md)))
                         ∅) c
                | None => ret tt
                end ;;;
                ret (Some (did, eurl))
              else ret None
          end
      end
  end.

(** The text of the log kept of a deletion given up for want of a
    discount id. *)
Definition aborted_log_text : string :=
  "Aborted: Missing fienta_discount_id and could not resolve." +:+ nl.

(** [_handle_code_deletion] *)
Definition _handle_code_deletion (code_record : code_row) : M unit :=
  let c := code code_record in
  let* md := as_object (metadata code_record) no_attribute_get in
  let deletion_source := get_or md "deletion_source" (VStr "unknown") in
  let deletion_method := get_or md "deletion_method" (VStr "unknown") in
  let* current_status_check := codes_select_eq c in
  let raced :=
    match current_status_check with
    | r :: _ => negb (is_str (status r) "deleting")
    | [] => false
    end in
  if raced then ret tt
  else
    let id0 := get md "fienta_discount_id" in
    let url0 := get md "fienta_edit_url" in
    let* ids :=
      (if negb (truthy id0) || negb (truthy url0) then
         let* resolved := _resolve_fienta_code_identifiers c in
         match resolved with
         | Some (rid, rurl) =>
             let id1 := py_or id0 rid in
             let url1 := py_or url0 rurl in
             let m1 := if truthy id1 then <["fienta_discount_id" := id1]> md else md in
             let m2 := if truthy url1 then <["fienta_edit_url" := url1]> m1 else m1 in
             codes_update_eq (Patch None None (Some (now E)) (Some m2) ∅) c ;;;
             ret (id1, url1)
         | None => ret (id0, url0)
         end
       else ret (id0, url0)) in
    let '(fienta_discount_id, fienta_edit_url) := ids in
    if negb (truthy fienta_discount_id) then
      let previous_status := get_or md "previous_status" (status code_record) in
      _mark_action_failed c "Missing fienta_discount_id; cannot delete in Fienta"
        previous_status ;;;
      write_log (delete_log_path c) aborted_log_text
    else
      let* success := _run_fienta_operation "delete-code"
        (<["fienta_edit_url" := fienta_edit_url]>
           (<["fienta_discount_id" := fienta_discount_id]> {[ "code" := c ]})) in
      if success : bool then
        codes_update_eq
          (Patch None (Some (VStr "deleted")) (Some (now E))
             (Some (<["coordination_completed" := now E]>
                     (<["deletion_method" := deletion_method]>
                       (<["deletion_source" := deletion_source]>
                         (<["deletion_completed_by" := VStr "action_processor"]>
                           (<["deleted_in_fienta_at" := now E]> md))))))
             ∅) c
      else
        _mark_action_failed c "Playwright deletion did not complete" (VStr "active") ;;;
        raise "Failed to delete code from Fienta".

(** [_handle_code_update] *)
Definition update_fields : list string :=
  ["discount_percent"; "discount_amount"; "max_uses"; "expires_at"; "description"].

Definition update_params (md : dict) : list (string * value) :=
  omap (λ field, (λ v, (field, v)) <$> md !! ("new_" +:+ field)) update_fields.

Definition promote_field (m : dict) (fv : string * value) : dict :=
  delete ("new_" +:+ fv.1) (<[fv.1 := fv.2]> m).

Definition _handle_code_update (code_record : code_row) : M unit :=
  let c := code code_record in
  let* md := as_object (metadata code_record) not_iterable in
  let params := update_params md in
  match params with
  | [] => ret tt
  | _ :: _ =>
      let* success := _run_fienta_operation "update-code"
                        (merge_over {[ "code" := c ]} (list_to_map params)) in
      if success : bool then
        let updated_metadata :=
          <["update_method" := VStr "api_request"]>
            (<["updated_in_fienta_at" := now E]> (foldl promote_field md params)) in
        codes_update_eq
          (Patch None (Some (VStr "active")) (Some (now E)) (Some updated_metadata) ∅) c
      else raise "Failed to update code in Fienta"
  end.

(** [_handle_code_rename] *)
Definition _handle_code_rename (code_record : code_row) : M unit :=
  let old_code := code code_record in
  let* md := as_object (metadata code_record) no_attribute_get in
  let new_code := get md "new_code" in
  if negb (truthy new_code) then
    raise "No new_code specified in metadata for rename operation"
  else
    let* success := _run_fienta_operation "rename-code"
                      (<["new_code" := new_code]> {[ "old_code" := old_code ]}) in
    if success : bool then
      let new_record :=
        {| code := new_code;
           status := VStr "active";
           updated_at := now E;
           metadata :=
             Some (<["rename_method" := VStr "api_request"]>
                     (<["renamed_in_fienta_at" := now E]>
                       (<["renamed_from" := old_code]> md)));
           columns := columns code_record |} in
      codes_delete_eq old_code ;;;
      codes_insert new_record
    else raise "Failed to rename code in Fienta".

(** [_process_single_code_action]: [metadata.get('action')] is read
    before the try block, so a NULL [metadata] raises out of the function
    with nothing marked.  Then dispatch on status, then on the [action]
    key; a raising handler is marked failed with the status of the row as
    selected, and the exception goes on to the caller. *)
Definition _process_single_code_action (code_record : code_row) : M unit :=
  let c := code code_record in
  let st := status code_record in
  let* md := as_object (metadata code_record) no_attribute_get in
  let action := get md "action" in
  try_except
    (if is_str st "creating" || is_str action "create" then
       _handle_code_creation code_record
     else if is_str st "deleting" || is_str action "delete" then
       _handle_code_deletion code_record
     else if is_str st "updating" || is_str action "update" then
       _handle_code_update code_record
     else if is_str st "renaming" || is_str action "rename" then
       _handle_code_rename code_record
     else ret tt)
    (λ e, _mark_action_failed c e (status code_record) ;;; raise e).

(** The loop shared by the four categories:
    [for r in rows: try: await body(r); processed += 1 except Exception: log].
    The rate-limit sleeps have no effect on the state and are left out. *)
Fixpoint for_each_counted {A} (body : A → M unit) (rows : list A)
    (processed : nat) : M nat :=
  match rows with
  | [] => ret processed
  | r :: rest =>
      let* ok := try_except (body r ;;; ret true) (λ _, ret false) in
      for_each_counted body rest (if ok : bool then S processed else processed)
  end.

















End WithEnv.
End ActionProcessor.

(** ** FientaMonitorService *)

(** One entry of the usage scrape ([scrape-usage] output).  A key that
    may be missing is an option; [discountId] and [editUrl] are read with
    [.get] and stored as they come. *)
Record scraped_code := ScrapedCode {
  scraped_name : value;
  ordersUsed : option Z;
  orderLimit : option Z;
  ticketsUsed : option Z;
  ticketLimit : option Z;
  discountId : value;
  editUrl : value
}.

(** One entry of the [metadata] object of the [list-codes] output. *)
Record captured := Captured {
  captured_discountId : option value;
  captured_editUrl : option value
}.

Module FientaMonitorService.
Section WithEnv.
Context (E : env).

(** [self.event_id = settings.fienta_event_id or "118714"] *)
Definition event_id : string :=
  if String.eqb (fienta_event_id E) "" then "118714" else fienta_event_id E.

(** The row built for a scraped code in [_sync_codes_to_supabase].  The
    float [usage_percentage] is not modelled. *)
Definition scraped_status (code_data : scraped_code) : value :=
  if default 0 (ordersUsed code_data) <? default 1 (orderLimit code_data)
  then VStr "active" else VStr "used".

Definition scraped_metadata (code_data : scraped_code) : dict :=
  {[ "orders_used" := VInt (default 0 (ordersUsed code_data));
     "order_limit" := VInt (default 0 (orderLimit code_data));
     "tickets_used" := VInt (default 0 (ticketsUsed code_data));
     "ticket_limit" := VInt (default 0 (ticketLimit code_data));
     "last_scraped" := now E;
     "fienta_event_id" := VStr event_id;
     "fienta_discount_id" := discountId code_data;
     "fienta_edit_url" := editUrl code_data ]}.

(** [_sync_codes_to_supabase]: an existing row is updated with the whole
    scraped record, status included; an unseen code is inserted. *)
Definition sync_one (code_data : scraped_code) : M unit :=
  let c := scraped_name code_data in
  let* existing := codes_select_eq c in
  match existing with
  | _ :: _ =>
      codes_update_eq
        (Patch (Some c) (Some (scraped_status code_data)) None
               (Some (scraped_metadata code_data)) {[ "type" := VStr "discount" ]}) c
  | [] =>
      codes_insert
        (CodeRow c (scraped_status code_data) VNone (Some (scraped_metadata code_data))
                 {[ "type" := VStr "discount" ]})
  end.

Definition _sync_codes_to_supabase (codes_data : list scraped_code) : M nat :=
  ActionProcessor.for_each_counted sync_one codes_data 0%nat.

(** [_get_existing_metadata]: the column as it is stored, [None] for a
    NULL; the empty object when no row has the code. *)
Definition _get_existing_metadata (code_name : value) : M (option dict) :=
  let* result := codes_select_eq code_name in
  match result with
  | r :: _ => ret (metadata r)
  | [] => ret (Some ∅)
  end.

(** The stamp written by a cleanup. *)
Definition cleanup_metadata (existing_metadata : dict)
    (source reason : string) (previous_status : value) : dict :=
  <["previous_status" := previous_status]>
    (<["deletion_completed_by" := VStr "fienta_monitor"]>
      (<["deletion_reason" := VStr reason]>
        (<["deletion_method" := VStr source]>
          (<["deletion_source" := VStr source]>
            (<["deleted_at" := now E]> existing_metadata))))).

Definition mark_deleted (code_name : value) (md : dict) : M unit :=
  codes_update_eq (Patch None (Some (VStr "deleted")) (Some (now E)) (Some md) ∅)
                  code_name.

(** The loop of [_cleanup_deleted_codes] over the rows selected as
    active; [{**existing_metadata, ..}] raises on a NULL. *)
Fixpoint cleanup_loop (fienta_codes : list value) (rows : list code_row)
    (deleted_count : nat) : M nat :=
  match rows with
  | [] => ret deleted_count
  | db_code :: rest =>
      let code_name := code db_code in
      let current_status := status db_code in
      if bool_decide (code_name ∉ fienta_codes) && is_str current_status "active" then
        let* existing_metadata := _get_existing_metadata code_name in
        let* existing := as_object existing_metadata not_a_mapping in
        mark_deleted code_name
          (cleanup_metadata existing "monitoring_cleanup"
             "missing_from_fienta" current_status) ;;;
        cleanup_loop fienta_codes rest (S deleted_count)
      else cleanup_loop fienta_codes rest deleted_count
  end.

(** [_cleanup_deleted_codes]: an exception in the loop ends the cleanup
    with 0, whatever was marked before it. *)
Definition _cleanup_deleted_codes (current_codes_data : list scraped_code) : M nat :=
  try_except
    (let fienta_codes := scraped_name <$> current_codes_data in
     let* all_db_codes := read (λ w, select_eq_status "active" (codes w)) in
     cleanup_loop fienta_codes all_db_codes 0%nat)
    (λ _, ret 0%nat).

(** The loop of [_fast_cleanup_deleted_codes]. *)
Fixpoint fast_cleanup_loop (fienta_codes_set : list value) (rows : list code_row)
    (deleted_count : nat) : M nat :=
  match rows with
  | [] => ret deleted_count
  | db_code :: rest =>
      let code_name := code db_code in
      if bool_decide (code_name ∉ fienta_codes_set) then
        let* existing_metadata := _get_existing_metadata code_name in
        let* existing := as_object existing_metadata not_a_mapping in
        mark_deleted code_name
          (cleanup_metadata existing "fast_monitoring"
             "missing_from_fienta_fast_check" (VStr "active")) ;;;
        fast_cleanup_loop fienta_codes_set rest (S deleted_count)
      else fast_cleanup_loop fienta_codes_set rest deleted_count
  end.

(** [_fast_cleanup_deleted_codes] *)
Definition _fast_cleanup_deleted_codes (fienta_codes : list value) : M nat :=
  try_except
    (let* all_db_codes := read (λ w, select_eq_status "active" (codes w)) in
     fast_cleanup_loop fienta_codes all_db_codes 0%nat)
    (λ _, ret 0%nat).

(** [_update_codes_metadata]: identifiers are filled in only where the
    row has none; the status column is not part of the update.  The loop
    sits in one try block whose handler returns the count reached, so
    the [{**existing_metadata}] of a row with a NULL ends it there. *)
Definition update_one_metadata (c : value) (code_metadata : captured) : M bool :=
  let* current := codes_select_eq c in
  match current with
  | [] => ret false
  | r :: _ =>
      let* existing_metadata := as_object (metadata r) not_a_mapping in
      let set_id :=
        bool_decide (is_Some (captured_discountId code_metadata))
        && negb (truthy (get existing_metadata "fienta_discount_id")) in
      let set_url :=
        bool_decide (is_Some (captured_editUrl code_metadata))
        && negb (truthy (get existing_metadata "fienta_edit_url")) in
      let m1 :=
        if set_id
        then <["fienta_discount_id" := default VNone (captured_discountId code_metadata)]>
               existing_metadata
        else existing_metadata in
      let m2 :=
        if set_url
        then <["fienta_edit_url" := default VNone (captured_editUrl code_metadata)]> m1
        else m1 in
      if set_id || set_url then
        codes_update_eq
          (Patch None None (Some (now E))
             (Some (<["metadata_source" := VStr "fast_monitoring"]>
                      (<["metadata_updated_at" := now E]> m2))) ∅) c ;;;
        ret true
      else ret false
  end.

Fixpoint update_metadata_loop (items : list (value * captured))
    (updated_count : nat) : M nat :=
  match items with
  | [] => ret updated_count
  | (c, code_metadata) :: rest =>
      let* updated :=
        try_except (let* u := update_one_metadata c code_metadata in ret (Some u))
                   (λ _, ret None) in
      match updated with
      | Some u =>
          update_metadata_loop rest (if u : bool then S updated_count else updated_count)
      | None => ret updated_count
      end
  end.

Definition _update_codes_metadata (metadata_captured : list (value * captured))
  : M nat :=
  update_metadata_loop metadata_captured 0%nat.

End WithEnv.
End FientaMonitorService.

(** ** The request layer (app/routers/actions.py)

    The endpoints that file intents.  An [HTTPException] ends the call
    with its status code; any other exception is answered with 500 and
    its text: in the model that is the [TypeError] of [{**metadata}] on a
    row whose [metadata] is NULL. *)

Inductive reply :=
  | Accepted (message : string)
  | Rejected (status_code : nat) (detail : string).

Module Actions.
Section WithEnv.
Context (E : env).

(** [k not in ['code', 'type', 'organization_id']] *)
Definition is_extra_key (k : string) : bool :=
  negb (existsb (String.eqb k) ["code"; "type"; "organization_id"]).

(** [request_code_creation] *)
Definition request_code_creation (code_data : dict) : M reply :=
  let c := get code_data "code" in
  if negb (truthy c) then ret (Rejected 400 "Code is required")
  else
    let* existing := codes_select_eq c in
    match existing with
    | _ :: _ =>
        ret (Rejected 409 ("Code '" +:+ py_str c +:+ "' already exists"))
    | [] =>
        let code_record :=
          {| code := c;
             status := VStr "creating";
             updated_at := VNone;
             metadata :=
               Some (merge_over
                       (<["request_method" := VStr "api"]>
                          (<["requested_at" := now E]> {[ "action" := VStr "create" ]}))
                       (filter (λ kv, is_extra_key kv.1) code_data));
             columns :=
               <["organization_id" := get code_data "organization_id"]>
                 {[ "type" := get_or code_data "type" (VStr "discount") ]} |} in
        codes_insert code_record ;;;
        ret (Accepted ("Code creation requested for '" +:+ py_str c
                       +:+ "'. Processing will begin shortly."))
    end.

(** The staged form of an update: every key but [code], prefixed. *)
Definition staged (update_data : dict) : dict :=
  kmap (String.append "new_") (filter (λ kv, kv.1 ≠ "code") update_data).

(** [request_code_update] *)
Definition request_code_update (c : string) (update_data : dict) : M reply :=
  let* existing := codes_select_eq (VStr c) in
  match existing with
  | [] => ret (Rejected 404 ("Code '" +:+ c +:+ "' not found"))
  | current_data :: _ =>
      match metadata current_data with
      | None => ret (Rejected 500 ("Error requesting code update: " +:+ not_a_mapping))
      | Some current_metadata =>
          let updated_metadata :=
            <["request_method" := VStr "api"]>
              (<["requested_at" := now E]>
                (<["action" := VStr "update"]>
                  (merge_over current_metadata (staged update_data)))) in
          codes_update_eq
            (Patch None (Some (VStr "updating")) (Some (now E)) (Some updated_metadata) ∅)
            (VStr c) ;;;
          ret (Accepted ("Code update requested for '" +:+ c
                         +:+ "'. Processing will begin shortly."))
      end
  end.

(** [request_code_deletion] *)
Definition request_code_deletion (c : string) : M reply :=
  let* existing := codes_select_eq (VStr c) in
  match existing with
  | [] => ret (Rejected 404 ("Code '" +:+ c +:+ "' not found"))
  | current_data :: _ =>
      let current_status := status current_data in
      if existsb (is_str current_status) ["deleting"; "creating"; "updating"; "renaming"]
      then
        ret (Rejected 409 ("Code '" +:+ c +:+ "' is already being processed (status: "
                           +:+ py_str current_status +:+ ")"))
      else
        match metadata current_data with
        | None =>
            ret (Rejected 500 ("Error requesting code deletion: " +:+ not_a_mapping))
        | Some current_metadata =>
            let m0 :=
              <["coordination_lock" := now E]>
                (<["previous_status" := current_status]>
                  (<["request_method" := VStr "api"]>
                    (<["requested_at" := now E]>
                      (<["deletion_method" := VStr "api_request"]>
                        (<["deletion_source" := VStr "user_request"]>
                          (<["action" := VStr "delete"]> current_metadata)))))) in
            let m1 :=
              if truthy (get current_metadata "fienta_discount_id")
              then <["fienta_discount_id" := get current_metadata "fienta_discount_id"]> m0
              else m0 in
            let updated_metadata :=
              if truthy (get current_metadata "fienta_edit_url")
              then <["fienta_edit_url" := get current_metadata "fienta_edit_url"]> m1
              else m1 in
            codes_update_eq
              (Patch None (Some (VStr "deleting")) (Some (now E))
                     (Some updated_metadata) ∅)
              (VStr c) ;;;
            ret (Accepted ("Code deletion requested for '" +:+ c
                           +:+ "'. Processing will begin shortly."))
        end
  end.

(** [request_code_rename] *)
Definition request_code_rename (old_code : string) (rename_data : dict) : M reply :=
  let new_code := get rename_data "new_code" in
  if negb (truthy new_code) then ret (Rejected 400 "new_code is required")
  else
    let* existing := codes_select_eq (VStr old_code) in
    match existing with
    | [] => ret (Rejected 404 ("Code '" +:+ old_code +:+ "' not found"))
    | current_data :: _ =>
        let* new_existing := codes_select_eq new_code in
        match new_existing with
        | _ :: _ =>
            ret (Rejected 409 ("Code '" +:+ py_str new_code +:+ "' already exists"))
        | [] =>
            match metadata current_data with
            | None =>
                ret (Rejected 500 ("Error requesting code rename: " +:+ not_a_mapping))
            | Some current_metadata =>
                let updated_metadata :=
                  <["previous_status" := status current_data]>
                    (<["request_method" := VStr "api"]>
                      (<["requested_at" := now E]>
                        (<["new_code" := new_code]>
                          (<["action" := VStr "rename"]> current_metadata)))) in
                codes_update_eq
                  (Patch None (Some (VStr "renaming")) (Some (now E))
                         (Some updated_metadata) ∅)
                  (VStr old_code) ;;;
                ret (Accepted ("Code rename requested from '" +:+ old_code +:+ "' to '"
                               +:+ py_str new_code +:+ "'. Processing will begin shortly."))
            end
        end
    end.

End WithEnv.
End Actions.

(** ** Derived notions and example data *)

(** The record inserted by a rename. *)
Definition renamed_record (E : env) (code_record : code_row) : code_row :=
  {| code := get (metadata_or_empty code_record) "new_code";
     status := VStr "active";
     updated_at := now E;
     metadata :=
       Some (<["rename_method" := VStr "api_request"]>
               (<["renamed_in_fienta_at" := now E]>
                 (<["renamed_from" := code code_record]>
                   (metadata_or_empty code_record))));
     columns := columns code_record |}.

(** A world holding only a codes table, with empty traces. *)
Definition world_of (t : list code_row) : world := World t [] [] [] [] [] [] [].

(** An environment whose deletion script exits with 1, whose one-off
    scrape finds nothing, whose queries are answered and whose file
    system takes every write. *)
Definition env0 : env :=
  Env (VStr "2025-09-12T10:45:00+00:00") "20250912_104500" "118714"
      (λ _ _, Some (CompletedProcess 1 "" "")) (λ _, None) (λ _, false) (λ _, true).


(** The delete race: X1 was selected as deleting, and by the time the
    handler re-reads it another actor has set it back to active. *)
Definition x1_selected : code_row :=
  CodeRow (VStr "X1") (VStr "deleting") VNone
          (Some {[ "action" := VStr "delete"; "fienta_discount_id" := VStr "501" ]}) ∅.
Definition x1_now : code_row :=
  CodeRow (VStr "X1") (VStr "active") VNone
          (Some {[ "fienta_discount_id" := VStr "501" ]}) ∅.



(** A delete whose identifiers are known, run against a Gateway whose
    script exits with 1 ([env0]); the row was active or used before. *)
Definition x3 : code_row :=
  CodeRow (VStr "X3") (VStr "deleting") VNone
          (Some {[ "action" := VStr "delete"; "previous_status" := VStr "used";
                   "fienta_discount_id" := VStr "503";
                   "fienta_edit_url" := VStr "/my/events/118714/discounts/503/edit" ]}) ∅.

(** A rename whose new name is the old one. *)
Definition same_name : code_row :=
  CodeRow (VStr "A") (VStr "renaming") VNone
          (Some {[ "action" := VStr "rename"; "new_code" := VStr "A" ]}) ∅.

(** A rename of A to B. *)
Definition a_to_b : code_row :=
  CodeRow (VStr "A") (VStr "renaming") VNone
          (Some {[ "action" := VStr "rename"; "new_code" := VStr "B" ]}) ∅.

(** The round trip of a rename as it is claimed for every renaming row:
    after the handler succeeds, nothing is stored under the old code and
    exactly one row, active and stamped, under the new one. *)
Definition rename_round_trip (E : env) (code_record : code_row) (w : world) : Prop :=
  let old_code := code code_record in
  let new_code := get (metadata_or_empty code_record) "new_code" in
  let out := ActionProcessor._handle_code_rename E code_record w in
  out.1 = Ok tt →
  select_eq_code old_code (codes out.2) = []
  ∧ ∃ r, select_eq_code new_code (codes out.2) = [r]
         ∧ status r = VStr "active"
         ∧ metadata_or_empty r !! "renamed_from" = Some old_code.

(** The metadata column [_get_existing_metadata] and [_mark_action_failed]
    read for a code: that of the first row stored under it, the empty
    object when there is none. *)
Definition existing_metadata_of (c : value) (t : list code_row) : option dict :=
  match select_eq_code c t with
  | r :: _ => metadata r
  | [] => Some ∅
  end.

(** The update a cleanup sends for one code. *)
Definition cleanup_patch (E : env) (md : dict) : patch :=
  Patch None (Some (VStr "deleted")) (Some (now E)) (Some md) ∅.

(** What either cleanup loop does to the world, the count left aside:
    for each selected row that passes [sel], one update under its code,
    stamped by [stamp] over the metadata stored at that moment; the loop
    ends at the first such row whose stored metadata is NULL. *)
Fixpoint stamp_loop (E : env) (sel : code_row → bool)
    (stamp : code_row → dict → dict) (rows : list code_row) (w : world) : world :=
  match rows with
  | [] => w
  | x :: rest =>
      if sel x then
        match existing_metadata_of (code x) (codes w) with
        | Some md =>
            stamp_loop E sel stamp rest
              (journaled (WUpdate "codes" (code x))
                 (with_codes
                    (update_eq_code (cleanup_patch E (stamp x md)) (code x)) w))
        | None => w
        end
      else stamp_loop E sel stamp rest w
  end.

Definition full_sel (fienta_codes : list value) (x : code_row) : bool :=
  bool_decide (code x ∉ fienta_codes) && is_str (status x) "active".
Definition full_stamp (E : env) (x : code_row) (md : dict) : dict :=
  FientaMonitorService.cleanup_metadata E md "monitoring_cleanup"
    "missing_from_fienta" (status x).
Definition fast_sel (fienta_codes : list value) (x : code_row) : bool :=
  bool_decide (code x ∉ fienta_codes).
Definition fast_stamp (E : env) (x : code_row) (md : dict) : dict :=
  FientaMonitorService.cleanup_metadata E md "fast_monitoring"
    "missing_from_fienta_fast_check" (VStr "active").





(** The cleanup scenario: A, B and C are active, the scrape shows A and C. *)
Definition active_row (name : string) : code_row :=
  CodeRow (VStr name) (VStr "active") VNone (Some {[ "max_uses" := VInt 5 ]}) ∅.
Definition scraped (name : string) : scraped_code :=
  ScrapedCode (VStr name) (Some 0) (Some 5) None None VNone VNone.


(** A table with an active row and a row in mid-deletion, both gone from
    the external platform. *)
Definition mid_intent : world :=
  world_of [active_row "A";
            CodeRow (VStr "D") (VStr "deleting") VNone
                    (Some {[ "action" := VStr "delete" ]}) ∅].

(** A row keeps the status deleted through a monitor step. *)
Definition keeps_deleted (step : M nat) (w : world) : Prop :=
  ∀ i r, codes w !! i = Some r → status r = VStr "deleted" →
         status <$> codes (step w).2 !! i = Some (VStr "deleted").

(** B was marked deleted locally and is still listed by the platform. *)
Definition deleted_b : code_row :=
  CodeRow (VStr "B") (VStr "deleted") VNone
          (Some {[ "deletion_reason" := VStr "missing_from_fienta" ]}) ∅.







(** The update the sync sends for a code it finds stored. *)
Definition sync_patch (E : env) (code_data : scraped_code) : patch :=
  Patch (Some (scraped_name code_data))
        (Some (FientaMonitorService.scraped_status code_data)) None
        (Some (FientaMonitorService.scraped_metadata E code_data))
        {[ "type" := VStr "discount" ]}.





(** A deleting row whose action key says create, with no identifiers. *)
Definition x2_create : code_row :=
  CodeRow (VStr "X2") (VStr "deleting") VNone (Some {[ "action" := VStr "create" ]}) ∅.


(** The rows of the snapshot are stored, each alone under its code. *)
Definition snapshot_of (rows : list code_row) (t : list code_row) : Prop :=
  NoDup (code <$> rows) ∧ ∀ y, y ∈ rows → select_eq_code (code y) t = [y].

(** ** Two passes in a row *)
















(** * Properties *)

(** Closed decidable facts (unique codes, membership), by evaluation. *)
Ltac by_decide := apply (bool_decide_unpack _); vm_compute; exact I.

(** ** Tables *)

Section Tables.
Implicit Types (t : list code_row) (r : code_row) (c : value) (p : patch).

Lemma update_eq_code_lookup_ne p c t i r :
  t !! i = Some r → code r ≠ c → update_eq_code p c t !! i = Some r.
Proof.
  intros Hi Hne. unfold update_eq_code.
  rewrite list_lookup_fmap, Hi. simpl. by rewrite decide_False.
Qed.

Lemma update_eq_code_lookup_eq p c t i r :
  t !! i = Some r → code r = c →
  update_eq_code p c t !! i = Some (apply_patch p r).
Proof.
  intros Hi Heq. unfold update_eq_code.
  rewrite list_lookup_fmap, Hi. simpl. by rewrite decide_True.
Qed.




Lemma unique_code_index t i j r r' :
  NoDup (code <$> t) → t !! i = Some r → t !! j = Some r' →
  code r = code r' → i = j.
Proof.
  intros Hnd Hi Hj Heq.
  apply (NoDup_lookup (code <$> t) i j (code r) Hnd).
  - by rewrite list_lookup_fmap, Hi.
  - by rewrite list_lookup_fmap, Hj, Heq.
Qed.

Lemma update_eq_code_absent p c t :
  c ∉ code <$> t → update_eq_code p c t = t.
Proof.
  unfold update_eq_code. induction t as [|x t IH]; intros Hc; [done|].
  rewrite fmap_cons in Hc. apply not_elem_of_cons in Hc as [Hx Hc].
  rewrite fmap_cons, decide_False by done. by rewrite IH.
Qed.

(** The rows found under a code after an update under it. *)
Lemma select_update_eq_code p c t :
  p_code p = None →
  select_eq_code c (update_eq_code p c t) = apply_patch p <$> select_eq_code c t.
Proof.
  intros Hp. unfold select_eq_code, update_eq_code.
  induction t as [|x t IH]; [done|]. rewrite fmap_cons.
  destruct (decide (code x = c)) as [Hx|Hx].
  - rewrite !filter_cons_True; [|done|by simpl; rewrite Hp].
    rewrite fmap_cons. by rewrite IH.
  - by rewrite !filter_cons_False.
Qed.


(** With unique codes, an update under a code rewrites one row in place. *)
Lemma update_eq_code_split p c t i r :
  NoDup (code <$> t) → t !! i = Some r → code r = c →
  ∃ l1 l2, t = app l1 (r :: l2)
           ∧ update_eq_code p c t = app l1 (apply_patch p r :: l2)
           ∧ (c ∉ code <$> l1) ∧ (c ∉ code <$> l2) ∧ length l1 = i.
Proof.
  intros Hnd Hi Hc.
  exists (take i t), (drop (S i) t).
  pose proof (take_drop_middle t i r Hi) as Ht.
  assert (Hout : (c ∉ code <$> take i t) ∧ (c ∉ code <$> drop (S i) t)).
  { rewrite <- Ht, fmap_app, fmap_cons, Hc in Hnd.
    apply NoDup_app in Hnd as (_ & Hl & Hr). apply NoDup_cons in Hr as [Hr _].
    split; [|done]. intros Hin. apply (Hl c Hin). left. }
  destruct Hout as [H1 H2]. split_and!; [done| |done..|].
  - rewrite <- Ht at 1. unfold update_eq_code at 1.
    rewrite fmap_app, fmap_cons, decide_True by done.
    fold (update_eq_code p c (take i t)). fold (update_eq_code p c (drop (S i) t)).
    by rewrite !update_eq_code_absent.
  - apply length_take_le. apply lookup_lt_Some in Hi. lia.
Qed.


Lemma filter_all {A} (P : A → Prop) `{∀ x, Decision (P x)} (l : list A) :
  (∀ x, x ∈ l → P x) → filter P l = l.
Proof.
  induction l as [|x l IH]; intros Hl; [done|].
  rewrite filter_cons_True by (apply Hl; by left).
  f_equal. apply IH. intros y Hy. apply Hl. by right.
Qed.

End Tables.

Import ActionProcessor FientaMonitorService Actions.

Lemma is_str_spec v s : is_str v s = true ↔ v = VStr s.
Proof. unfold is_str. apply bool_decide_eq_true. Qed.

Lemma is_str_refl s : is_str (VStr s) s = true.
Proof. by apply is_str_spec. Qed.

Lemma is_str_false v s : v ≠ VStr s → is_str v s = false.
Proof. unfold is_str. apply bool_decide_eq_false. Qed.


Lemma try_except_ok {A} (m : M A) h w a w' :
  m w = (Ok a, w') → try_except m h w = (Ok a, w').
Proof. unfold try_except. by intros ->. Qed.

(** ** The Gateway dispatcher *)

Lemma run_fienta_operation_stub E operation params w :
  operation ∈ ["create-code"; "update-code"; "rename-code"] →
  _run_fienta_operation E operation params w
  = (Ok true, gateway_called operation params w).
Proof.
  intros H. repeat (apply elem_of_cons in H as [->|H]); [done..|].
  by apply elem_of_nil in H.
Qed.




Lemma handle_code_rename_run E code_record md w :
  metadata code_record = Some md →
  truthy (get md "new_code") = true →
  _handle_code_rename E code_record w
  = (Ok tt,
     journaled (WInsert "codes" (get md "new_code"))
       (with_codes (insert_row (renamed_record E code_record))
         (journaled (WDelete "codes" (code code_record))
           (with_codes (delete_eq_code (code code_record))
             (gateway_called "rename-code"
                (<["new_code" := get md "new_code"]>
                   {[ "old_code" := code code_record ]}) w))))).
Proof.
  intros Hmd Hnew. unfold _handle_code_rename. rewrite Hmd. unfold bind at 1. simpl.
  rewrite Hnew. cbn [negb]. unfold bind.
  rewrite run_fienta_operation_stub by set_solver.
  unfold renamed_record, metadata_or_empty. rewrite Hmd. done.
Qed.


(** The handlers on a row whose metadata is NULL. *)
Lemma handlers_on_null E code_record w :
  metadata code_record = None →
  _process_single_code_action E code_record w = (Raise no_attribute_get, w)
  ∧ _handle_code_creation E code_record w = (Raise no_attribute_get, w)
  ∧ _handle_code_deletion E code_record w = (Raise no_attribute_get, w)
  ∧ _handle_code_update E code_record w = (Raise not_iterable, w)
  ∧ _handle_code_rename E code_record w = (Raise no_attribute_get, w).
Proof.
  intros Hmd.
  unfold _process_single_code_action, _handle_code_creation, _handle_code_deletion,
    _handle_code_update, _handle_code_rename.
  rewrite Hmd. done.
Qed.

(** The dispatcher on a row whose metadata is an object. *)
Lemma dispatch_run E y md w :
  metadata y = Some md →
  _process_single_code_action E y w
  = try_except
      (if is_str (status y) "creating" || is_str (get md "action") "create" then
         _handle_code_creation E y
       else if is_str (status y) "deleting" || is_str (get md "action") "delete" then
         _handle_code_deletion E y
       else if is_str (status y) "updating" || is_str (get md "action") "update" then
         _handle_code_update E y
       else if is_str (status y) "renaming" || is_str (get md "action") "rename" then
         _handle_code_rename E y
       else ret tt)
      (λ e, _mark_action_failed E (code y) e (status y) ;;; raise e) w.
Proof. intros Hmd. unfold _process_single_code_action. by rewrite Hmd. Qed.


Lemma dispatch_delete E y md w :
  metadata y = Some md →
  status y = VStr "deleting" → get md "action" ≠ VStr "create" →
  _process_single_code_action E y w
  = try_except (_handle_code_deletion E y)
      (λ e, _mark_action_failed E (code y) e (status y) ;;; raise e) w.
Proof.
  intros Hmd Hst Hact. rewrite (dispatch_run E y md) by done.
  rewrite Hst, (is_str_false (VStr "deleting") "creating") by done.
  rewrite (is_str_false _ "create") by done. by rewrite is_str_refl.
Qed.


Lemma dispatch_rename E y md w :
  metadata y = Some md →
  status y = VStr "renaming" →
  get md "action" ∉ [VStr "create"; VStr "delete"; VStr "update"] →
  _process_single_code_action E y w
  = try_except (_handle_code_rename E y)
      (λ e, _mark_action_failed E (code y) e (status y) ;;; raise e) w.
Proof.
  intros Hmd Hst Hact. rewrite (dispatch_run E y md) by done.
  rewrite !not_elem_of_cons in Hact. destruct Hact as (H1 & H2 & H3 & _).
  rewrite Hst, !(is_str_false (VStr "renaming")) by done.
  rewrite (is_str_false _ "create"), (is_str_false _ "delete"),
    (is_str_false _ "update") by done.
  by rewrite is_str_refl.
Qed.




(** ** Staged updates *)





Lemma update_params_keys (md : dict) :
  (update_params md).*1 `sublist_of` update_fields.
Proof.
  unfold update_params. induction update_fields as [|x l IH]; [done|].
  simpl. destruct (md !! ("new_" +:+ x)); simpl.
  - by apply sublist_skip.
  - by apply sublist_cons.
Qed.

Lemma update_params_field (md : dict) f :
  f ∈ (update_params md).*1 → f ∈ update_fields.
Proof.
  intros Hf. eapply elem_of_submseteq; [exact Hf|].
  apply sublist_submseteq, update_params_keys.
Qed.








(** ** The deletion handler *)

(** C4: when the re-read at the head of the deletion handler finds the
    row with a status other than deleting, the handler returns normally
    and the world is exactly the one it started from: no Gateway call, no
    subprocess, no store write, no file; the same holds for the per-row
    dispatcher on a row that was selected as deleting and that it hands to
    the deletion handler (its [action] key is not create, which the
    dispatcher tests first).  A row whose metadata is NULL never comes to
    the re-read: handler and dispatcher raise on their first read of the
    metadata, and the world is as much the one they started from. *)
Theorem delete_race_abort E code_record w r rest :
  select_eq_code (code code_record) (codes w) = r :: rest →
  status r ≠ VStr "deleting" →
  let outcome :=
    match metadata code_record with
    | Some _ => Ok tt
    | None => Raise no_attribute_get
    end in
  _handle_code_deletion E code_record w = (outcome, w)
  ∧ (status code_record = VStr "deleting" →
     get (metadata_or_empty code_record) "action" ≠ VStr "create" →
     _process_single_code_action E code_record w = (outcome, w)).
Proof.
  intros Hsel Hst. cbv zeta. unfold metadata_or_empty.
  destruct (metadata code_record) as [md|] eqn:Hmd.
  - assert (H : _handle_code_deletion E code_record w = (Ok tt, w)).
    { unfold _handle_code_deletion. rewrite Hmd. unfold bind at 1. simpl.
      unfold bind, codes_select_eq, read.
      rewrite Hsel. by rewrite is_str_false. }
    split; [exact H|]. intros Hrec Hact.
    rewrite (dispatch_delete E code_record md) by done.
    unfold try_except. by rewrite H.
  - destruct (handlers_on_null E code_record w Hmd) as (Hd & _ & Hh & _).
    split; [exact Hh|]. intros _ _. exact Hd.
Qed.

Lemma delete_race_abort_witness :
  _handle_code_deletion env0 x1_selected (world_of [x1_now])
  = (Ok tt, world_of [x1_now])
  ∧ _process_single_code_action env0 x1_selected (world_of [x1_now])
    = (Ok tt, world_of [x1_now]).
Proof.
  destruct (delete_race_abort env0 x1_selected (world_of [x1_now]) x1_now [])
    as [H1 H2]; [reflexivity|discriminate|].
  split; [exact H1|]. apply H2; [reflexivity|].
  change (get _ "action") with (VStr "delete"). discriminate.
Defined.


(** The world a failure mark leaves: status and flags written under the
    code, on top of the metadata read back; nothing when that is NULL. *)
Lemma mark_action_failed_run E c error previous_status w md :
  existing_metadata_of c (codes w) = Some md →
  _mark_action_failed E c error previous_status w
  = (Ok tt,
     journaled (WUpdate "codes" c)
       (with_codes
          (update_eq_code
             (Patch None (Some previous_status) (Some (now E))
                (Some (<["failed_at" := now E]>
                        (<["action_error" := VStr error]>
                          (<["action_failed" := VBool true]> md)))) ∅) c) w)).
Proof.
  unfold existing_metadata_of, _mark_action_failed, bind, codes_select_eq, read.
  destruct (select_eq_code c (codes w)) as [|r rest]; [by intros [= <-]|by intros ->].
Qed.

Lemma mark_action_failed_null E c error previous_status w :
  existing_metadata_of c (codes w) = None →
  _mark_action_failed E c error previous_status w = (Ok tt, w).
Proof.
  unfold existing_metadata_of, _mark_action_failed, bind, codes_select_eq, read.
  destruct (select_eq_code c (codes w)) as [|r rest]; [done|]. by intros ->.
Qed.

Lemma mark_action_failed_ok E c error previous_status w :
  (_mark_action_failed E c error previous_status w).1 = Ok tt.
Proof.
  destruct (existing_metadata_of c (codes w)) as [md|] eqn:Hmd.
  - by rewrite (mark_action_failed_run E c error previous_status w md).
  - by rewrite mark_action_failed_null.
Qed.







(** ** Failure marks *)

(** C3: a delete whose Gateway call fails.  The handler marks the row
    failed with status active and raises; the dispatcher's handler for the
    exception marks it failed again with the status of the selected row,
    so the row ends in deleting, neither active nor the recorded
    previous_status (used). *)
Theorem failed_delete_stays_deleting :
  let out := _process_single_code_action env0 x3 (world_of [x3]) in
  out.1 = Raise "Failed to delete code from Fienta"
  ∧ status <$> codes out.2 = [VStr "deleting"]
  ∧ (λ r, get (metadata_or_empty r) "action_failed") <$> codes out.2 = [VBool true]
  ∧ fst <$> gateway_log out.2 = ["delete-code"]
  ∧ subprocess_log out.2 = [("node delete script", VStr "X3")]
  ∧ journal out.2 = [WUpdate "codes" (VStr "X3"); WUpdate "codes" (VStr "X3")]
  ∧ status <$> codes (_handle_code_deletion env0 x3 (world_of [x3])).2
    = [VStr "active"].
Proof. cbv zeta. split_and!; vm_compute; reflexivity. Qed.

(** ** Rename *)

Lemma select_delete_same c (t : list code_row) :
  select_eq_code c (delete_eq_code c t) = [].
Proof.
  unfold select_eq_code, delete_eq_code.
  induction t as [|x t IH]; [done|].
  destruct (decide (code x = c)) as [Heq|Hne].
  - by rewrite (filter_cons_False (λ r, code r ≠ c)) by auto.
  - rewrite (filter_cons_True (λ r, code r ≠ c)) by done.
    by rewrite filter_cons_False.
Qed.

Lemma select_delete_other c c' (t : list code_row) :
  select_eq_code c t = [] → select_eq_code c (delete_eq_code c' t) = [].
Proof.
  unfold select_eq_code, delete_eq_code.
  induction t as [|x t IH]; [done|]. intros H.
  destruct (decide (code x = c)) as [Heq|Hne].
  - by rewrite filter_cons_True in H.
  - rewrite filter_cons_False in H by done.
    destruct (decide (code x ≠ c')).
    + rewrite (filter_cons_True (λ r, code r ≠ c')) by done.
      rewrite filter_cons_False by done. by apply IH.
    + rewrite (filter_cons_False (λ r, code r ≠ c')) by done. by apply IH.
Qed.

Lemma select_insert_row c (r : code_row) t :
  select_eq_code c (insert_row r t)
  = (select_eq_code c t ++ (if decide (code r = c) then [r] else []))%list.
Proof.
  unfold select_eq_code, insert_row. by rewrite filter_app.
Qed.

(** A truthy value read from the metadata column shows it holds an object. *)
Lemma truthy_get_object r k :
  truthy (get (metadata_or_empty r) k) = true →
  ∃ md, metadata r = Some md ∧ metadata_or_empty r = md.
Proof.
  unfold metadata_or_empty. destruct (metadata r) as [md|]; [by exists md|].
  simpl. unfold get. rewrite lookup_empty. done.
Qed.

(** C5, the claim as stated fails: renaming A to A succeeds and a row is
    stored under the old code afterwards. *)
Lemma rename_round_trip_counterexample :
  status same_name = VStr "renaming"
  ∧ get (metadata_or_empty same_name) "new_code" = VStr "A"
  ∧ (_handle_code_rename env0 same_name (world_of [same_name])).1 = Ok tt
  ∧ (_process_single_code_action env0 same_name (world_of [same_name])).1 = Ok tt
  ∧ ¬ rename_round_trip env0 same_name (world_of [same_name]).
Proof.
  repeat split. unfold rename_round_trip. cbv zeta. intros H.
  destruct (H eq_refl) as [Hold _]. vm_compute in Hold. discriminate.
Qed.

(** C5, amended: for a row whose new_code is set, differs from its own
    code and is not yet the code of a stored row, the rename handler
    succeeds and leaves no row under the old code and exactly one row under
    the new code, active and with renamed_from equal to the old code; the
    per-row dispatcher does the same for a row in status renaming whose
    [action] key does not send it to another handler. *)
Theorem rename_round_trip_fresh E code_record w :
  truthy (get (metadata_or_empty code_record) "new_code") = true →
  get (metadata_or_empty code_record) "new_code" ≠ code code_record →
  select_eq_code (get (metadata_or_empty code_record) "new_code") (codes w) = [] →
  rename_round_trip E code_record w
  ∧ (_handle_code_rename E code_record w).1 = Ok tt
  ∧ (status code_record = VStr "renaming" →
     get (metadata_or_empty code_record) "action"
       ∉ [VStr "create"; VStr "delete"; VStr "update"] →
     _process_single_code_action E code_record w
     = _handle_code_rename E code_record w).
Proof.
  intros Hnew Hne Hfresh.
  destruct (truthy_get_object _ _ Hnew) as (md & Hmd & Hmd').
  rewrite Hmd' in *.
  split; [|split].
  - unfold rename_round_trip. cbv zeta. intros _.
    rewrite (handle_code_rename_run E code_record md) by done.
    cbn [snd codes journaled with_codes]. split.
    + rewrite select_insert_row, select_delete_same.
      rewrite decide_False; [done|]. simpl. by rewrite Hmd'.
    + exists (renamed_record E code_record). rewrite Hmd'.
      rewrite select_insert_row, select_delete_other by done.
      rewrite decide_True by (simpl; by rewrite Hmd'). repeat split.
      unfold metadata_or_empty at 1. simpl. by simplify_map_eq.
  - by rewrite (handle_code_rename_run E code_record md).
  - intros Hst Hact.
    rewrite (dispatch_rename E code_record md) by done.
    unfold try_except.
    by rewrite (handle_code_rename_run E code_record md).
Qed.

Lemma rename_round_trip_fresh_witness :
  rename_round_trip env0 a_to_b (world_of [a_to_b])
  ∧ (_handle_code_rename env0 a_to_b (world_of [a_to_b])).1 = Ok tt
  ∧ _process_single_code_action env0 a_to_b (world_of [a_to_b])
    = _handle_code_rename env0 a_to_b (world_of [a_to_b]).
Proof.
  destruct (rename_round_trip_fresh env0 a_to_b (world_of [a_to_b]))
    as (H1 & H2 & H3); [reflexivity|discriminate|reflexivity|].
  split; [exact H1|split; [exact H2|]].
  apply H3; [reflexivity|].
  change (get (metadata_or_empty a_to_b) "action") with (VStr "rename").
  rewrite !not_elem_of_cons. repeat split; try discriminate. apply not_elem_of_nil.
Defined.

(** ** Cleanup passes *)

Lemma try_except_ret_world {A} (m : M A) (a : A) w :
  (try_except m (λ _, ret a) w).2 = (m w).2.
Proof. unfold try_except, ret. by destruct (m w) as [[?|?] ?]. Qed.

Lemma try_except_ret_value {A} (m : M A) (a b : A) w :
  (m w).1 = Ok b → (try_except m (λ _, ret a) w).1 = Ok b.
Proof. unfold try_except. destruct (m w) as [[?|?] ?]; simpl; by intros. Qed.


Lemma get_existing_metadata_run c w :
  _get_existing_metadata c w = (Ok (existing_metadata_of c (codes w)), w).
Proof.
  unfold _get_existing_metadata, existing_metadata_of, bind, codes_select_eq, read.
  by destruct (select_eq_code c (codes w)).
Qed.

Lemma cleanup_loop_world E fienta_codes rows n w :
  (cleanup_loop E fienta_codes rows n w).2
  = stamp_loop E (full_sel fienta_codes) (full_stamp E) rows w.
Proof.
  revert n w. induction rows as [|x rest IH]; intros n w; [done|].
  simpl. unfold full_sel at 1.
  destruct (bool_decide (code x ∉ fienta_codes) && is_str (status x) "active");
    [|apply IH].
  unfold bind at 1. rewrite get_existing_metadata_run.
  destruct (existing_metadata_of (code x) (codes w)) as [md|]; [|done].
  unfold bind, as_object, ret, mark_deleted, codes_update_eq, modify.
  unfold full_stamp at 1, cleanup_patch. apply IH.
Qed.

Lemma fast_cleanup_loop_world E fienta_codes rows n w :
  (fast_cleanup_loop E fienta_codes rows n w).2
  = stamp_loop E (fast_sel fienta_codes) (fast_stamp E) rows w.
Proof.
  revert n w. induction rows as [|x rest IH]; intros n w; [done|].
  simpl. unfold fast_sel at 1.
  destruct (bool_decide (code x ∉ fienta_codes)); [|apply IH].
  unfold bind at 1. rewrite get_existing_metadata_run.
  destruct (existing_metadata_of (code x) (codes w)) as [md|]; [|done].
  unfold bind, as_object, ret, mark_deleted, codes_update_eq, modify.
  unfold fast_stamp at 1, cleanup_patch. apply IH.
Qed.

Lemma cleanup_world E current_codes_data w :
  (_cleanup_deleted_codes E current_codes_data w).2
  = stamp_loop E (full_sel (scraped_name <$> current_codes_data)) (full_stamp E)
      (select_eq_status "active" (codes w)) w.
Proof.
  unfold _cleanup_deleted_codes. rewrite try_except_ret_world.
  unfold bind, read. apply cleanup_loop_world.
Qed.

Lemma fast_cleanup_world E fienta_codes w :
  (_fast_cleanup_deleted_codes E fienta_codes w).2
  = stamp_loop E (fast_sel fienta_codes) (fast_stamp E)
      (select_eq_status "active" (codes w)) w.
Proof.
  unfold _fast_cleanup_deleted_codes. rewrite try_except_ret_world.
  unfold bind, read. apply fast_cleanup_loop_world.
Qed.

Section StampLoop.
Context (E : env) (sel : code_row → bool) (stamp : code_row → dict → dict).

(** A row is left alone by the updates sent under other codes. *)
Lemma stamp_loop_other rows w i r :
  codes w !! i = Some r →
  (∀ x, x ∈ rows → sel x = true → code x ≠ code r) →
  codes (stamp_loop E sel stamp rows w) !! i = Some r.
Proof.
  revert w. induction rows as [|x rest IH]; intros w Hi Hrows; [done|].
  simpl. destruct (sel x) eqn:Hsel.
  - destruct (existing_metadata_of (code x) (codes w)) as [md|]; [|done].
    apply IH.
    + simpl. apply update_eq_code_lookup_ne; [done|].
      intros Heq. eapply Hrows; [left|done|done].
    + intros y Hy. apply Hrows. by right.
  - apply IH; [done|]. intros y Hy. apply Hrows. by right.
Qed.





Lemma snapshot_lookup rows t x i r :
  snapshot_of rows t → x ∈ rows → t !! i = Some r → code r = code x → r = x.
Proof.
  intros [_ Hsel] Hx Hi Hc.
  assert (r ∈ select_eq_code (code x) t) as Hin.
  { apply list_elem_of_filter. split; [done|]. by eapply list_elem_of_lookup_2. }
  rewrite (Hsel x Hx) in Hin. by apply list_elem_of_singleton in Hin.
Qed.



End StampLoop.






Lemma active_not_pending r : status r = VStr "active" → is_pending (status r) = false.
Proof. by intros ->. Qed.

(** Rows that are not active are outside both cleanups. *)
Lemma cleanup_other_rows E w i r current_codes_data fienta_codes :
  NoDup (code <$> codes w) →
  codes w !! i = Some r →
  status r ≠ VStr "active" →
  codes (_cleanup_deleted_codes E current_codes_data w).2 !! i = Some r
  ∧ codes (_fast_cleanup_deleted_codes E fienta_codes w).2 !! i = Some r.
Proof.
  intros Hnd Hi Hst.
  assert (Hother : ∀ x, x ∈ select_eq_status "active" (codes w) → code x ≠ code r).
  { intros x Hx Heq. apply list_elem_of_filter in Hx as [Hact Hx].
    apply list_elem_of_lookup_1 in Hx as [j Hj].
    assert (j = i) as -> by (by eapply unique_code_index).
    rewrite Hi in Hj. by injection Hj as ->. }
  rewrite cleanup_world, fast_cleanup_world.
  split; apply stamp_loop_other; auto.
Qed.

(** C1: with codes as unique keys, a row whose status is creating,
    updating, deleting or renaming is left exactly as it is, status
    included, by the full-cycle cleanup and by the fast-check cleanup,
    whatever the external scrape contains. *)
Theorem cleanup_leaves_pending_rows E w i r current_codes_data fienta_codes :
  NoDup (code <$> codes w) →
  codes w !! i = Some r →
  is_pending (status r) = true →
  codes (_cleanup_deleted_codes E current_codes_data w).2 !! i = Some r
  ∧ codes (_fast_cleanup_deleted_codes E fienta_codes w).2 !! i = Some r.
Proof.
  intros Hnd Hi Hpending. apply cleanup_other_rows; [done..|].
  intros Hst. by rewrite active_not_pending in Hpending.
Qed.

Lemma cleanup_leaves_pending_rows_witness :
  (status <$> codes (_cleanup_deleted_codes env0 [] mid_intent).2 !! 1%nat)
  = Some (VStr "deleting")
  ∧ (status <$> codes (_fast_cleanup_deleted_codes env0 [] mid_intent).2 !! 1%nat)
    = Some (VStr "deleting").
Proof.
  destruct (cleanup_leaves_pending_rows env0 mid_intent 1%nat
              (CodeRow (VStr "D") (VStr "deleting") VNone
                       (Some {[ "action" := VStr "delete" ]}) ∅)
              [] []) as [H1 H2].
  - by_decide.
  - reflexivity.
  - reflexivity.
  - by rewrite H1, H2.
Defined.







(** ** Code sync and metadata refresh *)

Lemma for_each_counted_cons {A} (body : A → M unit) x rest n w :
  for_each_counted body (x :: rest) n w
  = match body x w with
    | (Ok _, w') => for_each_counted body rest (S n) w'
    | (Raise _, w') => for_each_counted body rest n w'
    end.
Proof.
  simpl. unfold bind, try_except, ret. by destruct (body x w) as [[[]|e] w'].
Qed.

Lemma sync_one_run E code_data w :
  sync_one E code_data w
  = (Ok tt,
     match select_eq_code (scraped_name code_data) (codes w) with
     | _ :: _ =>
         journaled (WUpdate "codes" (scraped_name code_data))
           (with_codes (update_eq_code (sync_patch E code_data) (scraped_name code_data)) w)
     | [] =>
         journaled (WInsert "codes" (scraped_name code_data))
           (with_codes
              (insert_row (CodeRow (scraped_name code_data) (scraped_status code_data)
                             VNone (Some (scraped_metadata E code_data))
                             {[ "type" := VStr "discount" ]})) w)
     end).
Proof.
  unfold sync_one, bind, codes_select_eq, read.
  by destruct (select_eq_code (scraped_name code_data) (codes w)).
Qed.

Lemma scraped_status_live code_data :
  scraped_status code_data = VStr "active" ∨ scraped_status code_data = VStr "used".
Proof. unfold scraped_status. destruct (_ <? _); auto. Qed.

(** A row whose code is not in the scrape is not written by the sync. *)
Lemma sync_other_rows E codes_data n w i r :
  codes w !! i = Some r →
  code r ∉ scraped_name <$> codes_data →
  codes (for_each_counted (sync_one E) codes_data n w).2 !! i = Some r.
Proof.
  revert n w. induction codes_data as [|cd rest IH]; intros n w Hi Hout; [done|].
  rewrite fmap_cons in Hout. apply not_elem_of_cons in Hout as [Hne Hout].
  rewrite for_each_counted_cons, sync_one_run.
  apply IH; [|done].
  destruct (select_eq_code (scraped_name cd) (codes w)); simpl.
  - unfold insert_row. by apply lookup_app_l_Some.
  - by apply update_eq_code_lookup_ne.
Qed.

(** A row whose code is in the scrape ends active or used, whatever its
    status was. *)
Lemma sync_overwrites_status E codes_data n w i x :
  codes w !! i = Some x →
  (status x = VStr "active" ∨ status x = VStr "used")
  ∨ code x ∈ scraped_name <$> codes_data →
  ∃ x', codes (for_each_counted (sync_one E) codes_data n w).2 !! i = Some x'
        ∧ code x' = code x
        ∧ (status x' = VStr "active" ∨ status x' = VStr "used").
Proof.
  revert n w x. induction codes_data as [|cd rest IH]; intros n w x Hi Hor.
  { destruct Hor as [Hlive|Hin]; [by exists x|]. by apply elem_of_nil in Hin. }
  rewrite for_each_counted_cons, sync_one_run.
  destruct (decide (scraped_name cd = code x)) as [Heq|Hne].
  - assert (x ∈ select_eq_code (scraped_name cd) (codes w)) as Hsel.
    { apply list_elem_of_filter. split; [done|]. by eapply list_elem_of_lookup_2. }
    destruct (select_eq_code (scraped_name cd) (codes w)) as [|y ys];
      [by apply elem_of_nil in Hsel|].
    edestruct (IH (S n)
      (journaled (WUpdate "codes" (scraped_name cd))
         (with_codes (update_eq_code (sync_patch E cd) (scraped_name cd)) w))
      (apply_patch (sync_patch E cd) x)) as (x' & Hx' & Hc & Hs).
    + simpl. by apply update_eq_code_lookup_eq.
    + left. simpl. apply scraped_status_live.
    + exists x'. split; [done|]. split; [|done]. rewrite Hc. done.
  - rewrite fmap_cons in Hor.
    assert ((status x = VStr "active" ∨ status x = VStr "used")
            ∨ code x ∈ scraped_name <$> rest) as Hor'.
    { destruct Hor as [?|Hin]; [by left|]. right.
      apply elem_of_cons in Hin as [Heq|?]; [congruence|done]. }
    destruct (select_eq_code (scraped_name cd) (codes w)); apply IH; try done; simpl.
    + unfold insert_row. by apply lookup_app_l_Some.
    + apply update_eq_code_lookup_ne; [done|congruence].
Qed.

Lemma update_eq_code_status p c (t : list code_row) i :
  p_status p = None →
  status <$> update_eq_code p c t !! i = status <$> t !! i.
Proof.
  intros Hp. unfold update_eq_code. rewrite list_lookup_fmap.
  destruct (t !! i) as [r|]; [|done]. simpl.
  destruct (decide (code r = c)); [|done]. simpl. by rewrite Hp.
Qed.

(** One step of the metadata refresh: it raises on a NULL, leaving the
    world as it was, or returns whether it wrote. *)
Lemma update_one_metadata_cases E c code_metadata w :
  (∃ r rest, select_eq_code c (codes w) = r :: rest ∧ metadata r = None
             ∧ update_one_metadata E c code_metadata w = (Raise not_a_mapping, w))
  ∨ (∃ b w', update_one_metadata E c code_metadata w = (Ok b, w')
             ∧ (w' = w
                ∨ ∃ md, w' = journaled (WUpdate "codes" c)
                               (with_codes
                                  (update_eq_code
                                     (Patch None None (Some (now E)) (Some md) ∅) c) w))).
Proof.
  unfold update_one_metadata, bind, codes_select_eq, read.
  destruct (select_eq_code c (codes w)) as [|r rest] eqn:Hsel.
  { right. eexists _, _. split; [done|]. by left. }
  destruct (metadata r) as [md|] eqn:Hmd; simpl.
  - right. destruct (_ || _).
    + eexists _, _. split; [done|]. right. by eexists.
    + eexists _, _. split; [done|]. by left.
  - left. by exists r, rest.
Qed.

Lemma update_one_metadata_status E c code_metadata w i :
  status <$> codes (update_one_metadata E c code_metadata w).2 !! i
  = status <$> codes w !! i.
Proof.
  destruct (update_one_metadata_cases E c code_metadata w)
    as [(r & rest & _ & _ & ->)|(b & w' & -> & [->|[md ->]])]; try done.
  simpl. by apply update_eq_code_status.
Qed.

(** The loop of the refresh, step by step. *)
Lemma update_metadata_loop_cons E c code_metadata rest n w :
  update_metadata_loop E ((c, code_metadata) :: rest) n w
  = match update_one_metadata E c code_metadata w with
    | (Ok u, w') => update_metadata_loop E rest (if u then S n else n) w'
    | (Raise _, w') => (Ok n, w')
    end.
Proof.
  simpl. unfold bind, try_except, ret.
  by destruct (update_one_metadata E c code_metadata w) as [[u|e] w'].
Qed.

Lemma update_codes_metadata_status E items n w i :
  status <$> codes (update_metadata_loop E items n w).2 !! i
  = status <$> codes w !! i.
Proof.
  revert n w. induction items as [|[c cm] rest IH]; intros n w; [done|].
  rewrite update_metadata_loop_cons.
  pose proof (update_one_metadata_status E c cm w i) as Hst.
  destruct (update_one_metadata E c cm w) as [[b'|e] w']; simpl in *; [|done].
  by rewrite IH.
Qed.

(** C2, the claim as stated fails: the code sync writes the scraped
    status over a deleted row whose code the platform still lists. *)
Lemma sync_resurrects_counterexample :
  status <$> codes (_sync_codes_to_supabase env0 [scraped "B"] (world_of [deleted_b])).2
  = [VStr "active"]
  ∧ ¬ keeps_deleted (_sync_codes_to_supabase env0 [scraped "B"]) (world_of [deleted_b]).
Proof.
  split; [reflexivity|]. intros H.
  specialize (H 0%nat deleted_b eq_refl eq_refl). vm_compute in H. discriminate.
Qed.

(** C2, amended: a row whose status is deleted keeps it through the
    metadata refresh of the fast check, and is left untouched by both
    cleanups (codes being unique keys) and by the code sync when its code
    is absent from the scrape; the code sync of a full cycle writes the
    scraped status, active or used, over every row whose code appears in
    the scrape, deleted rows included. *)
Theorem deleted_rows_under_reconciliation E w i r :
  codes w !! i = Some r →
  status r = VStr "deleted" →
  (∀ metadata_captured, keeps_deleted (_update_codes_metadata E metadata_captured) w)
  ∧ (NoDup (code <$> codes w) →
     ∀ current_codes_data fienta_codes,
       codes (_cleanup_deleted_codes E current_codes_data w).2 !! i = Some r
       ∧ codes (_fast_cleanup_deleted_codes E fienta_codes w).2 !! i = Some r)
  ∧ (∀ codes_data,
       code r ∉ scraped_name <$> codes_data →
       codes (_sync_codes_to_supabase E codes_data w).2 !! i = Some r)
  ∧ (∀ codes_data,
       code r ∈ scraped_name <$> codes_data →
       ∃ r', codes (_sync_codes_to_supabase E codes_data w).2 !! i = Some r'
             ∧ code r' = code r
             ∧ (status r' = VStr "active" ∨ status r' = VStr "used")).
Proof.
  intros Hi Hst. split; [|split; [|split]].
  - intros metadata_captured j r0 Hj Hdel.
    unfold _update_codes_metadata. rewrite update_codes_metadata_status.
    by rewrite Hj; simpl; rewrite Hdel.
  - intros Hnd current_codes_data fienta_codes.
    apply cleanup_other_rows; [done..|]. by rewrite Hst.
  - intros codes_data Hout. unfold _sync_codes_to_supabase.
    apply sync_other_rows; [exact Hi|exact Hout].
  - intros codes_data Hin. unfold _sync_codes_to_supabase.
    apply sync_overwrites_status; [exact Hi|by right].
Qed.

Lemma deleted_rows_under_reconciliation_witness :
  codes (_cleanup_deleted_codes env0 [] (world_of [deleted_b])).2 !! 0%nat
  = Some deleted_b
  ∧ codes (_sync_codes_to_supabase env0 [scraped "A"] (world_of [deleted_b])).2 !! 0%nat
    = Some deleted_b
  ∧ ∃ r', codes (_sync_codes_to_supabase env0 [scraped "B"] (world_of [deleted_b])).2
            !! 0%nat = Some r'
          ∧ code r' = VStr "B"
          ∧ (status r' = VStr "active" ∨ status r' = VStr "used").
Proof.
  destruct (deleted_rows_under_reconciliation env0 (world_of [deleted_b]) 0%nat
              deleted_b eq_refl eq_refl) as (_ & Hclean & Hout & Hin).
  assert (NoDup (code <$> codes (world_of [deleted_b]))) as Hnd by by_decide.
  split; [|split].
  - exact (proj1 (Hclean Hnd [] [])).
  - apply Hout. by_decide.
  - apply Hin. by_decide.
Defined.

(** ** The pass *)














(** ** Two passes in a row *)

Section Settling.
Implicit Types (t : list code_row) (c : value).














End Settling.

(** ** Rows rewritten in place *)

Section Rewritten.
Context (E : env) (c : value).








End Rewritten.

(** ** Handlers, outcome by outcome *)











(** ** The codes loop *)









(** ** The other three categories *)














